(** * macos_window_manager: the native bridge of the clipboard renderer

    A shallow embedding of [src/renderer/src/native/macos_window_manager.cc]
    and the properties of its two exported entry points, [getScreenInfo] and
    [forceWindowOverDock].

    The file is Objective-C++ glue between three foreign layers: the N-API
    value layer ([Napi::]), CoreGraphics ([CG...]) and AppKit ([NS...]).
    Each layer gets a module with the few operations the source calls; the
    two functions of the source are then written against those modules in a
    state monad, statement by statement. *)

From Stdlib Require Import ZArith Lia.
From Stdlib Require Import Floats.PrimFloat Floats.FloatOps Floats.SpecFloat.
From stdpp Require Import base option list strings.

Set Warnings "-register-all".

Local Open Scope string_scope.
Local Open Scope list_scope.
Local Open Scope Z_scope.

(** ** CoreGraphics geometry

    [CGFloat] is an IEEE binary64 [double] on every 64-bit Apple target, so it
    is Rocq's primitive [float]; [NSRect] is a typedef of [CGRect] there. *)

Module CoreGraphics.

Definition CGFloat := float.

Record CGPoint := mkPoint { x : CGFloat; y : CGFloat }.
Record CGSize := mkSize { width : CGFloat; height : CGFloat }.
Record CGRect := mkRect { origin : CGPoint; size : CGSize }.

Definition NSRect := CGRect.

Definition NSMakeRect (x y w h : CGFloat) : NSRect :=
  {| origin := {| x := x; y := y |}; size := {| width := w; height := h |} |}.

Definition NSZeroRect : NSRect := NSMakeRect 0%float 0%float 0%float 0%float.

End CoreGraphics.
Import CoreGraphics.

(** ** The N-API value layer *)

Module Napi.

(** JavaScript values as far as this bridge builds or reads them.  An
    object keeps its properties in insertion order. *)
Inductive Value :=
| Number (d : float)
| Boolean (b : bool)
| Object (props : list (string * Value)).

Inductive Error := TypeError (message : string).

(** What the JavaScript caller observes at the call boundary. *)
Inductive Completion :=
| Returned (v : Value)
| Thrown (e : Error).

(** [Napi::CallbackInfo]: the argument vector.  The exported signature is
    [(windowId, x, y, width, height)], all JavaScript numbers, and the
    source converts with the unchecked [As<Napi::Number>()]; the model
    carries numbers only. *)
Definition CallbackInfo := list float.

Definition Length (info : CallbackInfo) : nat := length info.

(** [info[i]].  Past the end N-API hands out [undefined]; the source never
    indexes past the length it has checked, and the default below is not
    reached from it. *)
Definition at_index (info : CallbackInfo) (i : nat) : float :=
  default nan (info !! i).

Definition Object_New {V} : list (string * V) := [].

(** [obj.Set(key, v)]: overwrite in place when the key is there, append
    otherwise. *)
Fixpoint Set_ {V} (key : string) (v : V) (props : list (string * V))
  : list (string * V) :=
  match props with
  | [] => [(key, v)]
  | (k, old) :: rest =>
      if String.eqb k key then (k, v) :: rest
      else (k, old) :: Set_ key v rest
  end.

Fixpoint Get {V} (key : string) (props : list (string * V)) : option V :=
  match props with
  | [] => None
  | (k, v) :: rest => if String.eqb k key then Some v else Get key rest
  end.

Definition DoubleValue (d : float) : float := d.

(** Integer part of a finite double, rounded toward zero; [None] for NaN
    and the infinities. *)
Definition truncate (d : float) : option Z :=
  match Prim2SF d with
  | S754_zero _ => Some 0
  | S754_finite sign m e =>
      let magnitude := Z.shiftl (Z.pos m) e in
      Some (if sign then - magnitude else magnitude)
  | S754_infinity _ => None
  | S754_nan => None
  end.

(** The low 32 bits of an integer, read as two's complement. *)
Definition wrap_int32 (z : Z) : Z := (z + 2 ^ 31) mod 2 ^ 32 - 2 ^ 31.

(** [Number::Int32Value()], that is [napi_get_value_int32]: non-finite
    numbers give 0, anything else is truncated and reduced to its bottom
    32 bits. *)
Definition Int32Value (d : float) : Z :=
  match truncate d with
  | Some z => wrap_int32 z
  | None => 0
  end.

End Napi.
Import Napi.

(** ** AppKit objects *)

Module AppKit.

Record NSScreen := mkScreen {
  screen_frame : NSRect;          (* [screen frame] *)
  screen_visibleFrame : NSRect    (* [screen visibleFrame] *)
}.

(** Messages to [nil] return a zero-filled struct. *)
Definition frame (s : option NSScreen) : NSRect :=
  match s with Some s => screen_frame s | None => NSZeroRect end.

Definition visibleFrame (s : option NSScreen) : NSRect :=
  match s with Some s => screen_visibleFrame s | None => NSZeroRect end.

(** The part of an [NSWindow] this bridge reads or writes.  [windowNumber]
    and [level] are [NSInteger]; [collectionBehavior] is an [NSUInteger]
    option mask. *)
Record NSWindow := mkWindow {
  windowNumber : Z;
  level : Z;
  window_frame : NSRect;
  collectionBehavior : Z;
  isMovable : bool
}.

(** The four setters the bridge sends. *)
Inductive Message :=
| setLevel (newLevel : Z)
| setFrame_display_animate (frameRect : NSRect) (display animate : bool)
| setCollectionBehavior (behavior : Z)
| setMovable (flag : bool).

(** What a window does with each of them. *)
Definition perform (m : Message) (w : NSWindow) : NSWindow :=
  match m with
  | setLevel l =>
      {| windowNumber := windowNumber w; level := l;
         window_frame := window_frame w;
         collectionBehavior := collectionBehavior w;
         isMovable := isMovable w |}
  | setFrame_display_animate r _ _ =>
      {| windowNumber := windowNumber w; level := level w;
         window_frame := r;
         collectionBehavior := collectionBehavior w;
         isMovable := isMovable w |}
  | setCollectionBehavior b =>
      {| windowNumber := windowNumber w; level := level w;
         window_frame := window_frame w;
         collectionBehavior := b;
         isMovable := isMovable w |}
  | setMovable b =>
      {| windowNumber := windowNumber w; level := level w;
         window_frame := window_frame w;
         collectionBehavior := collectionBehavior w;
         isMovable := b |}
  end.

End AppKit.
Import AppKit.

(** ** Constants of the system headers

    The SDK headers are not part of the repository; the constants the source
    names are parameters of the development.  [macOS_SDK] lists the values of
    the shipping headers and is what the examples run on.

    [kCGDockWindowLevel] is a 32-bit [CGWindowLevel]; [kCGDockWindowLevel + 1]
    is computed in [int] and widened to the [NSInteger] that [setLevel:]
    takes.  The sum is written in [Z]: it leaves the 32-bit range only for a
    dock level of [INT_MAX], where C leaves the result undefined. *)

Record SystemHeaders := mkHeaders {
  kCGDockWindowLevel : Z;
  NSWindowCollectionBehaviorCanJoinAllSpaces : Z;
  NSWindowCollectionBehaviorStationary : Z;
  NSWindowCollectionBehaviorIgnoresCycle : Z
}.

Definition macOS_SDK : SystemHeaders :=
  {| kCGDockWindowLevel := 20;
     NSWindowCollectionBehaviorCanJoinAllSpaces := Z.shiftl 1 0;
     NSWindowCollectionBehaviorStationary := Z.shiftl 1 4;
     NSWindowCollectionBehaviorIgnoresCycle := Z.shiftl 1 6 |}.

(** ** The state the bridge runs against

    [OS] is what outlives a call: the display arrangement, the application's
    windows in the order [[NSApp windows]] enumerates them, and a log of the
    messages delivered to windows (oldest first).  A window is referred to by
    its position in [appWindows]: that is the model of an [NSWindow*]. *)

Record OS := mkOS {
  mainDisplayBounds : CGRect;           (* CGDisplayBounds(CGMainDisplayID()) *)
  mainScreen : option NSScreen;         (* [NSScreen mainScreen] *)
  appWindows : list NSWindow;           (* [NSApp windows] *)
  delivered : list (nat * Message)
}.

(** During a call there is also the [Napi::Env], of which the bridge touches
    only the pending exception. *)
Record State := mkState {
  pendingException : option Error;
  os : OS
}.

Definition Native (A : Type) : Type := State -> A * State.

Definition ret {A} (a : A) : Native A := fun s => (a, s).

Definition bind {A B} (m : Native A) (k : A -> Native B) : Native B :=
  fun s => let (a, s') := m s in k a s'.

Declare Scope native_scope.
Delimit Scope native_scope with native.
Notation "x <- m ;; k" := (bind m (fun x => k))
  (at level 100, m at next level, right associativity) : native_scope.
Notation "m ;; k" := (bind m (fun _ => k))
  (at level 100, right associativity) : native_scope.
Local Open Scope native_scope.

Definition CGDisplayBounds_CGMainDisplayID : Native CGRect :=
  fun s => (mainDisplayBounds (os s), s).

Definition NSScreen_mainScreen : Native (option NSScreen) :=
  fun s => (mainScreen (os s), s).

Definition NSApp_windows : Native (list NSWindow) :=
  fun s => (appWindows (os s), s).

(** [[target msg]]: the window at that position performs the message, and
    the delivery is logged. *)
Definition send (target : nat) (m : Message) : Native unit :=
  fun s =>
    (tt, {| pendingException := pendingException s;
            os := {| mainDisplayBounds := mainDisplayBounds (os s);
                     mainScreen := mainScreen (os s);
                     appWindows := alter (perform m) target (appWindows (os s));
                     delivered := delivered (os s) ++ [(target, m)] |} |}).

(** [error.ThrowAsJavaScriptException()]: the exception becomes pending in
    the environment and the native code goes on. *)
Definition ThrowAsJavaScriptException (e : Error) : Native unit :=
  fun s => (tt, {| pendingException := Some e; os := os s |}).

(** The wrapper [Napi::Function::New] puts around a native callback: the
    callback starts with nothing pending, and an exception pending at its
    end is what the caller gets in place of the returned value. *)
Definition invoke (f : CallbackInfo -> Native Value) (info : CallbackInfo)
    (o : OS) : Completion * OS :=
  let (v, s) := f info {| pendingException := None; os := o |} in
  match pendingException s with
  | Some e => (Thrown e, os s)
  | None => (Returned v, os s)
  end.

(** ** The source file *)

(** The [for (NSWindow* window in windows)] loop with its [break]: the
    position of the first window whose number is [windowId], counting from
    [i]; [None] is [targetWindow] left [nil]. *)
Fixpoint findTargetWindow (windows : list NSWindow) (windowId : Z) (i : nat)
  : option nat :=
  match windows with
  | [] => None
  | window :: rest =>
      if windowNumber window =? windowId then Some i
      else findTargetWindow rest windowId (S i)
  end.

Definition GetScreenInfo (info : CallbackInfo) : Native Value :=
  screenBounds <- CGDisplayBounds_CGMainDisplayID ;;
  mainScreen <- NSScreen_mainScreen ;;
  let visibleFrame := visibleFrame mainScreen in
  let fullFrame := frame mainScreen in
  let dockHeight :=
    (height (size fullFrame) - height (size visibleFrame)
     - y (origin visibleFrame))%float in
  let result := Object_New in
  let screen := Object_New in
  let screen := Set_ "x" (Number (x (origin screenBounds))) screen in
  let screen := Set_ "y" (Number (y (origin screenBounds))) screen in
  let screen := Set_ "width" (Number (width (size screenBounds))) screen in
  let screen := Set_ "height" (Number (height (size screenBounds))) screen in
  let visible := Object_New in
  let visible := Set_ "x" (Number (x (origin visibleFrame))) visible in
  let visible := Set_ "y" (Number (y (origin visibleFrame))) visible in
  let visible := Set_ "width" (Number (width (size visibleFrame))) visible in
  let visible := Set_ "height" (Number (height (size visibleFrame))) visible in
  let result := Set_ "screen" (Object screen) result in
  let result := Set_ "visible" (Object visible) result in
  let result := Set_ "dockHeight" (Number dockHeight) result in
  ret (Object result).

Section Bridge.

Variable hdr : SystemHeaders.

Definition ForceWindowOverDock (info : CallbackInfo) : Native Value :=
  if (Length info <? 5)%nat then
    ThrowAsJavaScriptException (TypeError "Wrong number of arguments") ;;
    ret (Boolean false)
  else
    let windowId := Int32Value (at_index info 0) in
    let x := DoubleValue (at_index info 1) in
    let y := DoubleValue (at_index info 2) in
    let width := DoubleValue (at_index info 3) in
    let height := DoubleValue (at_index info 4) in
    windows <- NSApp_windows ;;
    let targetWindow := findTargetWindow windows windowId 0 in
    match targetWindow with
    | None => ret (Boolean false)
    | Some targetWindow =>
        send targetWindow (setLevel (kCGDockWindowLevel hdr + 1)) ;;
        let frame := NSMakeRect x y width height in
        send targetWindow (setFrame_display_animate frame true false) ;;
        send targetWindow
          (setCollectionBehavior
             (Z.lor
                (Z.lor (NSWindowCollectionBehaviorCanJoinAllSpaces hdr)
                       (NSWindowCollectionBehaviorStationary hdr))
                (NSWindowCollectionBehaviorIgnoresCycle hdr))) ;;
        send targetWindow (setMovable false) ;;
        ret (Boolean true)
    end.

(** [Init]: the two names the module exports, each wrapped by
    [Napi::Function::New]. *)
Definition Init (exports : list (string * (CallbackInfo -> OS -> Completion * OS)))
  : list (string * (CallbackInfo -> OS -> Completion * OS)) :=
  let exports := Set_ "getScreenInfo" (invoke GetScreenInfo) exports in
  let exports := Set_ "forceWindowOverDock" (invoke ForceWindowOverDock) exports in
  exports.

End Bridge.


(** ** Reading a result back, as a JavaScript caller would *)

(** [v.k1.k2...]; [None] when a step is missing or is not an object. *)
Fixpoint lookupPath (path : list string) (v : Value) : option Value :=
  match path with
  | [] => Some v
  | key :: rest =>
      match v with
      | Object props =>
          match Get key props with
          | Some v' => lookupPath rest v'
          | None => None
          end
      | _ => None
      end
  end.

(** [a <= b] on two numbers read from a result; anything that is not a
    number compares false. *)
Definition number_le (a b : option Value) : bool :=
  match a, b with
  | Some (Number p), Some (Number q) => (p <=? q)%float
  | _, _ => false
  end.

(** The three inequalities on a [ScreenInfo] value. *)
Definition visible_width_fits (r : Value) : bool :=
  number_le (lookupPath ["visible"; "width"] r) (lookupPath ["screen"; "width"] r).

Definition visible_height_fits (r : Value) : bool :=
  number_le (lookupPath ["visible"; "height"] r) (lookupPath ["screen"; "height"] r).

Definition dockHeight_nonnegative (r : Value) : bool :=
  number_le (Some (Number 0%float)) (lookupPath ["dockHeight"] r).

Definition threw (c : Completion) : bool :=
  match c with
  | Thrown _ => true
  | Returned _ => false
  end.

(** The windows a first match leaves in front of it: none has the number. *)
Definition none_numbered (windowId : Z) (windows : list NSWindow) : Prop :=
  Forall (fun w => windowNumber w <> windowId) windows.

(** ** Sample machines *)

Definition plain_window (number : Z) : NSWindow :=
  {| windowNumber := number; level := 0;
     window_frame := NSMakeRect 100%float 100%float 640%float 480%float;
     collectionBehavior := 0; isMovable := true |}.

(** A laptop on its own: one 1440 x 900 display, a 70 point dock at the
    bottom and a 25 point menu bar. *)
Definition laptop : OS :=
  {| mainDisplayBounds := NSMakeRect 0%float 0%float 1440%float 900%float;
     mainScreen :=
       Some {| screen_frame := NSMakeRect 0%float 0%float 1440%float 900%float;
               screen_visibleFrame :=
                 NSMakeRect 0%float 70%float 1440%float 805%float |};
     appWindows := [plain_window 7; plain_window 12; plain_window 31];
     delivered := [] |}.

(** The same laptop with a 1920 x 1080 display arranged above it, the key
    window being on that display: [[NSScreen mainScreen]] is the external
    display, [CGMainDisplayID()] still the built-in one. *)
Definition laptop_with_display_above : OS :=
  {| mainDisplayBounds := NSMakeRect 0%float 0%float 1440%float 900%float;
     mainScreen :=
       Some {| screen_frame := NSMakeRect 0%float 900%float 1920%float 1080%float;
               screen_visibleFrame :=
                 NSMakeRect 0%float 900%float 1920%float 1055%float |};
     appWindows := [plain_window 7; plain_window 12; plain_window 31];
     delivered := [] |}.

(** A window list in which a number occurs twice, and one with a window
    whose number does not fit 32 bits. *)
Definition with_duplicate : OS :=
  {| mainDisplayBounds := mainDisplayBounds laptop;
     mainScreen := mainScreen laptop;
     appWindows := [plain_window 7; plain_window 12; plain_window 12];
     delivered := [] |}.

Definition with_wide_number : OS :=
  {| mainDisplayBounds := mainDisplayBounds laptop;
     mainScreen := mainScreen laptop;
     appWindows := [plain_window 4294967301; plain_window 5];
     delivered := [] |}.

(** Argument vectors for the samples: a window number and the rectangle
    (0, 0, 800, 600). *)
Definition place (windowId : float) : CallbackInfo :=
  [windowId; 0%float; 0%float; 800%float; 600%float].

(** ** What a successful call sends

    The messages of [ForceWindowOverDock] in the order the source sends them,
    and their joint effect on a window; the lemmas below show that a call
    which finds its target does exactly this. *)

Definition requestedFrame (info : CallbackInfo) : NSRect :=
  NSMakeRect (DoubleValue (at_index info 1)) (DoubleValue (at_index info 2))
             (DoubleValue (at_index info 3)) (DoubleValue (at_index info 4)).

Definition overDockBehavior (hdr : SystemHeaders) : Z :=
  Z.lor (Z.lor (NSWindowCollectionBehaviorCanJoinAllSpaces hdr)
               (NSWindowCollectionBehaviorStationary hdr))
        (NSWindowCollectionBehaviorIgnoresCycle hdr).

Definition overDockMessages (hdr : SystemHeaders) (info : CallbackInfo)
  : list Message :=
  [ setLevel (kCGDockWindowLevel hdr + 1);
    setFrame_display_animate (requestedFrame info) true false;
    setCollectionBehavior (overDockBehavior hdr);
    setMovable false ].

Definition performAll (msgs : list Message) (w : NSWindow) : NSWindow :=
  foldl (fun w m => perform m w) w msgs.

(** ** The identifier as a 32-bit integer

    What "truncated to a signed 32-bit integer" asks of the value the scan
    compares with, said without the conversion's own arithmetic. *)

(** The integer a finite double of sign [sign], mantissa [m] and exponent
    [e] stands for once its fraction is dropped. *)
Definition integer_part (sign : bool) (m : positive) (e : Z) : Z :=
  let signed := if sign then - Z.pos m else Z.pos m in
  if 0 <=? e then signed * 2 ^ e else Z.quot signed (2 ^ (- e)).

(** [v] is [z] cut to 32 bits and read as two's complement: it fits the
    signed 32-bit range and agrees with [z] on the low 32 bits. *)
Definition int32_of (z v : Z) : Prop :=
  - 2 ^ 31 <= v < 2 ^ 31 /\ v mod 2 ^ 32 = z mod 2 ^ 32.

(** * Properties *)

(** ** The N-API integer conversion *)

Lemma wrap_int32_range z : - 2 ^ 31 <= wrap_int32 z < 2 ^ 31.
Proof.
  unfold wrap_int32.
  pose proof (Z.mod_pos_bound (z + 2 ^ 31) (2 ^ 32) ltac:(lia)). lia.
Qed.

Lemma wrap_int32_small z : - 2 ^ 31 <= z < 2 ^ 31 -> wrap_int32 z = z.
Proof.
  intros Hz. unfold wrap_int32. rewrite Z.mod_small; lia.
Qed.

Lemma wrap_int32_congruent z : wrap_int32 z mod 2 ^ 32 = z mod 2 ^ 32.
Proof.
  unfold wrap_int32.
  rewrite Zminus_mod_idemp_l. f_equal. lia.
Qed.

Lemma Int32Value_range d : - 2 ^ 31 <= Int32Value d < 2 ^ 31.
Proof.
  unfold Int32Value. destruct (truncate d).
  - apply wrap_int32_range.
  - lia.
Qed.

Lemma truncate_finite d sign m e :
  Prim2SF d = S754_finite sign m e ->
  truncate d = Some (integer_part sign m e).
Proof.
  intros Hd. unfold truncate, integer_part. rewrite Hd. f_equal.
  destruct (Z.leb_spec 0 e) as [Hpos|Hneg].
  - rewrite Z.shiftl_mul_pow2 by assumption. destruct sign; lia.
  - remember (- e) as k eqn:Hk. replace e with (- k) by lia.
    rewrite Z.shiftl_div_pow2, ?Z.opp_involutive by lia.
    assert (Hpow : 0 < 2 ^ k) by (apply Z.pow_pos_nonneg; lia).
    destruct sign.
    + rewrite Z.quot_opp_l by lia.
      rewrite Z.quot_div_nonneg by lia. reflexivity.
    + rewrite Z.quot_div_nonneg by lia. reflexivity.
Qed.

Lemma wrap_int32_spec z : int32_of z (wrap_int32 z).
Proof. split; [apply wrap_int32_range | apply wrap_int32_congruent]. Qed.

Lemma int32_of_unique z v v' : int32_of z v -> int32_of z v' -> v = v'.
Proof.
  intros [Hv Hvz] [Hv' Hvz'].
  pose proof (Z.div_mod v (2 ^ 32) ltac:(lia)) as E.
  pose proof (Z.div_mod v' (2 ^ 32) ltac:(lia)) as E'.
  rewrite Hvz in E. rewrite Hvz' in E'. lia.
Qed.

Lemma Int32Value_spec d z : truncate d = Some z -> int32_of z (Int32Value d).
Proof. intros Hd. unfold Int32Value. rewrite Hd. apply wrap_int32_spec. Qed.

Lemma Int32Value_unique d z v :
  truncate d = Some z -> int32_of z v -> Int32Value d = v.
Proof.
  intros Hd Hv. apply (int32_of_unique z); [apply Int32Value_spec|]; assumption.
Qed.

Example Int32Value_small : Int32Value 12%float = 12.
Proof. reflexivity. Qed.

Example Int32Value_fraction : Int32Value (-5.5)%float = -5.
Proof. reflexivity. Qed.

Example Int32Value_wraps : Int32Value 4294967301%float = 5.
Proof. reflexivity. Qed.

Example Int32Value_sign : Int32Value 2147483648%float = -2147483648.
Proof. reflexivity. Qed.

Example Int32Value_nan : Int32Value nan = 0.
Proof. reflexivity. Qed.

(** ** The scan for the target window *)

Lemma findTargetWindow_None windows windowId k :
  findTargetWindow windows windowId k = None <-> none_numbered windowId windows.
Proof.
  unfold none_numbered. revert k.
  induction windows as [|w rest IH]; intros k; simpl.
  - split; [constructor | reflexivity].
  - destruct (Z.eqb_spec (windowNumber w) windowId) as [E|E].
    + split; [discriminate |]. intros H. inversion H; subst. contradiction.
    + rewrite IH. split.
      * intros H. constructor; assumption.
      * intros H. inversion H; assumption.
Qed.

Lemma findTargetWindow_first pre w post windowId k :
  none_numbered windowId pre ->
  windowNumber w = windowId ->
  findTargetWindow (pre ++ w :: post) windowId k = Some (k + length pre)%nat.
Proof.
  intros Hpre Hw. revert k.
  induction Hpre as [|w' pre' Hw' Hpre' IH]; intros k; simpl.
  - rewrite (proj2 (Z.eqb_eq _ _) Hw). f_equal. lia.
  - rewrite (proj2 (Z.eqb_neq _ _) Hw'), IH. f_equal. lia.
Qed.

Lemma findTargetWindow_Some windows windowId k i :
  findTargetWindow windows windowId k = Some i ->
  exists pre w post,
    windows = pre ++ w :: post /\ i = (k + length pre)%nat /\
    windowNumber w = windowId /\ none_numbered windowId pre.
Proof.
  revert k. induction windows as [|w rest IH]; intros k; simpl.
  - discriminate.
  - destruct (Z.eqb_spec (windowNumber w) windowId) as [E|E].
    + intros [= <-]. exists [], w, rest. simpl.
      repeat split; [lia | assumption | constructor].
    + intros H. destruct (IH _ H) as (pre & w' & post & -> & -> & Hw' & Hpre).
      exists (w :: pre), w', post. simpl.
      repeat split; [lia | assumption | constructor; assumption].
Qed.

(** A window found by position: the first one with the number. *)
Lemma findTargetWindow_lookup (windows : list NSWindow) windowId i w :
  windows !! i = Some w ->
  windowNumber w = windowId ->
  (forall j w', (j < i)%nat -> windows !! j = Some w' -> windowNumber w' <> windowId) ->
  findTargetWindow windows windowId 0 = Some i.
Proof.
  intros Hi Hw Hbefore.
  destruct (list_elem_of_split_length _ _ _ Hi) as (pre & post & -> & ->).
  apply (findTargetWindow_first pre w post windowId 0); [|assumption].
  apply Forall_lookup_2. intros j w' Hj.
  apply (Hbefore j w').
  - apply lookup_lt_Some in Hj. assumption.
  - rewrite lookup_app_l; [assumption | apply (lookup_lt_Some _ _ _ Hj)].
Qed.

(** Altering the element right after a prefix. *)
Lemma alter_middle {A} (f : A -> A) (pre : list A) (a : A) (post : list A) :
  alter f (length pre) (pre ++ a :: post) = pre ++ f a :: post.
Proof.
  pose proof (alter_app_r f pre (a :: post) 0) as H.
  rewrite Nat.add_0_r in H. exact H.
Qed.

(** Setters leave the window number alone, so they do not move the target. *)
Lemma perform_windowNumber m w : windowNumber (perform m w) = windowNumber w.
Proof. destruct m; reflexivity. Qed.

Lemma findTargetWindow_alter (f : NSWindow -> NSWindow) windows windowId i k :
  (forall w, windowNumber (f w) = windowNumber w) ->
  findTargetWindow (alter f i windows) windowId k
  = findTargetWindow windows windowId k.
Proof.
  intros Hf. revert i k.
  induction windows as [|w rest IH]; intros i k; [reflexivity|].
  destruct i as [|i].
  - change (alter f 0%nat (w :: rest)) with (f w :: rest).
    simpl. rewrite Hf. reflexivity.
  - change (alter f (S i) (w :: rest)) with (w :: alter f i rest).
    simpl. rewrite IH. reflexivity.
Qed.

(** ** Running [ForceWindowOverDock] *)

Section Running.

Variable hdr : SystemHeaders.

Lemma performAll_windowNumber msgs w :
  windowNumber (performAll msgs w) = windowNumber w.
Proof.
  unfold performAll. revert w.
  induction msgs as [|m msgs IH]; intros w; simpl; [reflexivity|].
  rewrite IH. apply perform_windowNumber.
Qed.

(** The four setters overwrite what they set: doing them again changes
    nothing. *)
Lemma performAll_overDock_twice info w :
  performAll (overDockMessages hdr info) (performAll (overDockMessages hdr info) w)
  = performAll (overDockMessages hdr info) w.
Proof. reflexivity. Qed.

Lemma performAll_overDock info w :
  performAll (overDockMessages hdr info) w
  = {| windowNumber := windowNumber w;
       level := kCGDockWindowLevel hdr + 1;
       window_frame := requestedFrame info;
       collectionBehavior := overDockBehavior hdr;
       isMovable := false |}.
Proof. reflexivity. Qed.

Lemma ForceWindowOverDock_too_few info s :
  (Length info < 5)%nat ->
  ForceWindowOverDock hdr info s
  = (Boolean false,
     {| pendingException := Some (TypeError "Wrong number of arguments");
        os := os s |}).
Proof.
  intros Hlen. unfold ForceWindowOverDock.
  rewrite (proj2 (Nat.ltb_lt _ _) Hlen). reflexivity.
Qed.

Lemma ForceWindowOverDock_enough info s :
  (5 <= Length info)%nat ->
  ForceWindowOverDock hdr info s
  = match findTargetWindow (appWindows (os s))
                           (Int32Value (at_index info 0)) 0 with
    | None => (Boolean false, s)
    | Some i =>
        (Boolean true,
         {| pendingException := pendingException s;
            os := {| mainDisplayBounds := mainDisplayBounds (os s);
                     mainScreen := mainScreen (os s);
                     appWindows :=
                       alter (performAll (overDockMessages hdr info)) i
                             (appWindows (os s));
                     delivered :=
                       delivered (os s)
                       ++ map (pair i) (overDockMessages hdr info) |} |})
    end.
Proof.
  intros Hlen. unfold ForceWindowOverDock.
  rewrite (proj2 (Nat.ltb_ge _ _) Hlen).
  unfold bind, NSApp_windows.
  destruct (findTargetWindow _ _ 0) as [i|]; [|reflexivity].
  unfold send, ret; cbn [os appWindows delivered pendingException
                         mainDisplayBounds mainScreen].
  rewrite !list_alter_alter_eq, <- !app_assoc. reflexivity.
Qed.

Lemma invoke_too_few info o :
  (Length info < 5)%nat ->
  invoke (ForceWindowOverDock hdr) info o
  = (Thrown (TypeError "Wrong number of arguments"), o).
Proof.
  intros Hlen. unfold invoke.
  rewrite ForceWindowOverDock_too_few by assumption. reflexivity.
Qed.

Lemma invoke_enough info o :
  (5 <= Length info)%nat ->
  invoke (ForceWindowOverDock hdr) info o
  = match findTargetWindow (appWindows o) (Int32Value (at_index info 0)) 0 with
    | None => (Returned (Boolean false), o)
    | Some i =>
        (Returned (Boolean true),
         {| mainDisplayBounds := mainDisplayBounds o;
            mainScreen := mainScreen o;
            appWindows :=
              alter (performAll (overDockMessages hdr info)) i (appWindows o);
            delivered :=
              delivered o ++ map (pair i) (overDockMessages hdr info) |})
    end.
Proof.
  intros Hlen. unfold invoke.
  rewrite ForceWindowOverDock_enough by assumption.
  cbn [os]. destruct (findTargetWindow _ _ 0); [reflexivity|].
  destruct o; reflexivity.
Qed.

End Running.

(** ** [getScreenInfo] *)

(** With no screen at all, [mainScreen] is [nil] and both frames read as
    zero. *)
Lemma GetScreenInfo_no_screen info pend bounds windows log :
  lookupPath ["dockHeight"]
    (fst (GetScreenInfo info
            {| pendingException := pend;
               os := {| mainDisplayBounds := bounds; mainScreen := None;
                        appWindows := windows; delivered := log |} |}))
  = Some (Number 0%float).
Proof. reflexivity. Qed.

(** C1: [getScreenInfo] ignores its arguments and returns the object
    [{screen: {x, y, width, height}, visible: {x, y, width, height},
    dockHeight}], where [screen] is the bounds of the primary display,
    [visible] is the visible frame of the main screen, and [dockHeight] is
    [fullFrame.height - visibleFrame.height - visibleFrame.origin.y] in
    double arithmetic, whatever frames the system reports. *)
Theorem getScreenInfo_reports_frames info bounds full visible windows log :
  let o := {| mainDisplayBounds := bounds;
              mainScreen := Some {| screen_frame := full;
                                    screen_visibleFrame := visible |};
              appWindows := windows; delivered := log |} in
  invoke GetScreenInfo info o
  = (Returned
       (Object
          [ ("screen",
             Object [ ("x", Number (x (origin bounds)));
                      ("y", Number (y (origin bounds)));
                      ("width", Number (width (size bounds)));
                      ("height", Number (height (size bounds))) ]);
            ("visible",
             Object [ ("x", Number (x (origin visible)));
                      ("y", Number (y (origin visible)));
                      ("width", Number (width (size visible)));
                      ("height", Number (height (size visible))) ]);
            ("dockHeight",
             Number (height (size full) - height (size visible)
                     - y (origin visible))%float) ]),
     o).
Proof. reflexivity. Qed.

Example getScreenInfo_laptop :
  fst (invoke GetScreenInfo [] laptop)
  = Returned
      (Object
         [ ("screen", Object [ ("x", Number 0%float); ("y", Number 0%float);
                               ("width", Number 1440%float);
                               ("height", Number 900%float) ]);
           ("visible", Object [ ("x", Number 0%float); ("y", Number 70%float);
                                ("width", Number 1440%float);
                                ("height", Number 805%float) ]);
           ("dockHeight", Number 25%float) ]).
Proof. reflexivity. Qed.

(** C9: [getScreenInfo] is a pure read.  A call leaves the whole state as it
    found it (no window or display changed, no message delivered, no
    exception pending); a second call returns what the first returned; and
    the result is a function of the display state alone, not of the
    arguments, the windows or the history. *)
Theorem getScreenInfo_pure_read :
  (forall info s, snd (GetScreenInfo info s) = s) /\
  (forall info o, snd (invoke GetScreenInfo info o) = o) /\
  (forall info info' o,
     fst (invoke GetScreenInfo info' (snd (invoke GetScreenInfo info o)))
     = fst (invoke GetScreenInfo info o)) /\
  (forall info info' bounds screen windows windows' log log',
     fst (invoke GetScreenInfo info
            {| mainDisplayBounds := bounds; mainScreen := screen;
               appWindows := windows; delivered := log |})
     = fst (invoke GetScreenInfo info'
              {| mainDisplayBounds := bounds; mainScreen := screen;
                 appWindows := windows'; delivered := log' |})).
Proof. repeat apply conj; intros; reflexivity. Qed.

(** C7: the inequalities fail on the code.  [screen] is taken from
    [CGMainDisplayID()] and [visible] from [[NSScreen mainScreen]], which the
    source treats as one screen and which are two displays once a second
    display holds the key window.  With a 1920 x 1080 display above the
    built-in 1440 x 900 one, the visible area comes out wider and taller
    than the screen and [dockHeight] is -875. *)
Lemma getScreenInfo_inequalities_fail :
  let r := fst (GetScreenInfo [] {| pendingException := None;
                                    os := laptop_with_display_above |}) in
  visible_width_fits r = false /\
  visible_height_fits r = false /\
  dockHeight_nonnegative r = false /\
  lookupPath ["dockHeight"] r = Some (Number (-875)%float).
Proof. vm_compute. repeat apply conj; reflexivity. Qed.

(** The numbers are handed on unchecked: each inequality holds of the
    result exactly when it holds of what the two system calls answered. *)
Lemma getScreenInfo_inequalities_reflect_inputs
    info pend bounds full visible windows log :
  let r := fst (GetScreenInfo info
                  {| pendingException := pend;
                     os := {| mainDisplayBounds := bounds;
                              mainScreen :=
                                Some {| screen_frame := full;
                                        screen_visibleFrame := visible |};
                              appWindows := windows; delivered := log |} |}) in
  visible_width_fits r = (width (size visible) <=? width (size bounds))%float /\
  visible_height_fits r = (height (size visible) <=? height (size bounds))%float /\
  dockHeight_nonnegative r
  = (0 <=? height (size full) - height (size visible) - y (origin visible))%float.
Proof. repeat apply conj; reflexivity. Qed.

Example getScreenInfo_inequalities_laptop :
  let r := fst (GetScreenInfo [] {| pendingException := None; os := laptop |}) in
  visible_width_fits r = true /\ visible_height_fits r = true /\
  dockHeight_nonnegative r = true.
Proof. vm_compute. repeat apply conj; reflexivity. Qed.

(** ** [forceWindowOverDock] *)

(** C4: with fewer than five arguments the call ends in a thrown
    [TypeError] at the call boundary, and the system state is what it was:
    no window changed and no message was delivered. *)
Theorem forceWindowOverDock_too_few_arguments
    (hdr : SystemHeaders) (info : CallbackInfo) (o : OS) :
  (Length info < 5)%nat ->
  invoke (ForceWindowOverDock hdr) info o
  = (Thrown (TypeError "Wrong number of arguments"), o).
Proof. apply invoke_too_few. Qed.

Lemma forceWindowOverDock_too_few_arguments_witness :
  (Length [12%float; 0%float; 0%float; 800%float] < 5)%nat /\
  invoke (ForceWindowOverDock macOS_SDK)
         [12%float; 0%float; 0%float; 800%float] laptop
  = (Thrown (TypeError "Wrong number of arguments"), laptop).
Proof.
  split; [simpl; lia |].
  apply (forceWindowOverDock_too_few_arguments macOS_SDK). simpl; lia.
Defined.

(** C3: with at least five arguments and no window carrying the requested
    number, the call returns [false], nothing is thrown, and the system
    state is what it was: level, frame, collection behavior and movability
    of every window are untouched and no message was delivered. *)
Theorem forceWindowOverDock_not_found
    (hdr : SystemHeaders) (info : CallbackInfo) (o : OS) :
  (5 <= Length info)%nat ->
  none_numbered (Int32Value (at_index info 0)) (appWindows o) ->
  invoke (ForceWindowOverDock hdr) info o = (Returned (Boolean false), o).
Proof.
  intros Hlen Hnone.
  rewrite invoke_enough by assumption.
  apply findTargetWindow_None with (k := 0%nat) in Hnone.
  rewrite Hnone. reflexivity.
Qed.

Lemma forceWindowOverDock_not_found_witness :
  (5 <= Length (place 99))%nat /\
  none_numbered (Int32Value (at_index (place 99) 0)) (appWindows laptop) /\
  invoke (ForceWindowOverDock macOS_SDK) (place 99) laptop
  = (Returned (Boolean false), laptop).
Proof.
  assert (Hlen : (5 <= Length (place 99))%nat) by (simpl; lia).
  assert (Hnone : none_numbered (Int32Value (at_index (place 99) 0))
                                (appWindows laptop))
    by (repeat constructor; vm_compute; discriminate).
  split; [exact Hlen | split; [exact Hnone |]].
  exact (forceWindowOverDock_not_found macOS_SDK (place 99) laptop Hlen Hnone).
Defined.

(** C2: when the call has its five arguments and window [i] is the one the
    number selects, that window receives, in this order and nothing else,
    [setLevel:] with the dock level plus one, [setFrame:display:animate:]
    with the rectangle [(x, y, width, height)] of the arguments, display
    [YES] and animate [NO], [setCollectionBehavior:] with the bitwise union
    of the can-join-all-spaces, stationary and ignores-cycle flags, and
    [setMovable:NO]; afterwards it holds exactly those values. *)
Theorem forceWindowOverDock_mutations_in_order
    (hdr : SystemHeaders) (info : CallbackInfo) (o : OS)
    (i : nat) (w : NSWindow) :
  (5 <= Length info)%nat ->
  appWindows o !! i = Some w ->
  windowNumber w = Int32Value (at_index info 0) ->
  (forall j w', (j < i)%nat -> appWindows o !! j = Some w' ->
                windowNumber w' <> Int32Value (at_index info 0)) ->
  let o' := snd (invoke (ForceWindowOverDock hdr) info o) in
  let rect := NSMakeRect (at_index info 1) (at_index info 2)
                         (at_index info 3) (at_index info 4) in
  let behavior :=
    Z.lor (Z.lor (NSWindowCollectionBehaviorCanJoinAllSpaces hdr)
                 (NSWindowCollectionBehaviorStationary hdr))
          (NSWindowCollectionBehaviorIgnoresCycle hdr) in
  delivered o'
  = delivered o
    ++ [ (i, setLevel (kCGDockWindowLevel hdr + 1));
         (i, setFrame_display_animate rect true false);
         (i, setCollectionBehavior behavior);
         (i, setMovable false) ] /\
  appWindows o' !! i
  = Some {| windowNumber := windowNumber w;
            level := kCGDockWindowLevel hdr + 1;
            window_frame := rect;
            collectionBehavior := behavior;
            isMovable := false |} /\
  (forall n,
     Z.testbit behavior n
     = Z.testbit (NSWindowCollectionBehaviorCanJoinAllSpaces hdr) n
       || Z.testbit (NSWindowCollectionBehaviorStationary hdr) n
       || Z.testbit (NSWindowCollectionBehaviorIgnoresCycle hdr) n).
Proof.
  intros Hlen Hi Hw Hbefore o' rect behavior. subst o'.
  rewrite invoke_enough by assumption.
  rewrite (findTargetWindow_lookup _ _ i w Hi Hw Hbefore).
  cbn [snd delivered appWindows].
  split; [reflexivity | split].
  - rewrite list_lookup_alter_eq, Hi. reflexivity.
  - intros n. subst behavior. rewrite !Z.lor_spec. reflexivity.
Qed.

Lemma forceWindowOverDock_mutations_in_order_witness :
  let o' := snd (invoke (ForceWindowOverDock macOS_SDK) (place 12) laptop) in
  delivered o'
  = [ (1%nat, setLevel 21);
      (1%nat, setFrame_display_animate
                (NSMakeRect 0%float 0%float 800%float 600%float) true false);
      (1%nat, setCollectionBehavior 81);
      (1%nat, setMovable false) ] /\
  appWindows o' !! 1%nat
  = Some {| windowNumber := 12; level := 21;
            window_frame := NSMakeRect 0%float 0%float 800%float 600%float;
            collectionBehavior := 81; isMovable := false |}.
Proof.
  assert (Hlen : (5 <= Length (place 12))%nat) by (simpl; lia).
  assert (Hbefore : forall j w', (j < 1)%nat -> appWindows laptop !! j = Some w' ->
                      windowNumber w' <> Int32Value (at_index (place 12) 0)).
  { intros j w' Hj. assert (j = 0%nat) as -> by lia.
    intros [= <-]. vm_compute. discriminate. }
  destruct (forceWindowOverDock_mutations_in_order macOS_SDK (place 12) laptop
              1 (plain_window 12) Hlen eq_refl eq_refl Hbefore)
    as (Hlog & Hwin & _).
  split; [exact Hlog | exact Hwin].
Defined.

(** C5: when the window list has a window with the requested number, the
    scan stops at the first such window in enumeration order; the call
    returns [true], that window alone takes the four mutations (those before
    it and those after it, even one carrying the same number, stay as they
    were), every message of the call is addressed to it, and the displays
    are not touched. *)
Theorem forceWindowOverDock_first_match_only
    (hdr : SystemHeaders) (info : CallbackInfo) (o : OS)
    (pre : list NSWindow) (w : NSWindow) (post : list NSWindow) :
  (5 <= Length info)%nat ->
  appWindows o = pre ++ w :: post ->
  none_numbered (Int32Value (at_index info 0)) pre ->
  windowNumber w = Int32Value (at_index info 0) ->
  invoke (ForceWindowOverDock hdr) info o
  = (Returned (Boolean true),
     {| mainDisplayBounds := mainDisplayBounds o;
        mainScreen := mainScreen o;
        appWindows :=
          pre ++ {| windowNumber := windowNumber w;
                    level := kCGDockWindowLevel hdr + 1;
                    window_frame := requestedFrame info;
                    collectionBehavior := overDockBehavior hdr;
                    isMovable := false |} :: post;
        delivered :=
          delivered o ++ map (pair (length pre)) (overDockMessages hdr info) |}).
Proof.
  intros Hlen Hsplit Hpre Hw.
  rewrite invoke_enough by assumption.
  rewrite Hsplit, (findTargetWindow_first pre w post _ 0 Hpre Hw).
  change (0 + length pre)%nat with (length pre).
  rewrite alter_middle. reflexivity.
Qed.

Lemma forceWindowOverDock_first_match_only_witness :
  appWindows (snd (invoke (ForceWindowOverDock macOS_SDK) (place 12)
                          with_duplicate))
  = [ plain_window 7;
      {| windowNumber := 12; level := 21;
         window_frame := NSMakeRect 0%float 0%float 800%float 600%float;
         collectionBehavior := 81; isMovable := false |};
      plain_window 12 ] /\
  fst (invoke (ForceWindowOverDock macOS_SDK) (place 12) with_duplicate)
  = Returned (Boolean true).
Proof.
  assert (Hlen : (5 <= Length (place 12))%nat) by (simpl; lia).
  assert (Hpre : none_numbered (Int32Value (at_index (place 12) 0))
                               [plain_window 7])
    by (repeat constructor; vm_compute; discriminate).
  rewrite (forceWindowOverDock_first_match_only macOS_SDK (place 12)
             with_duplicate [plain_window 7] (plain_window 12)
             [plain_window 12] Hlen eq_refl Hpre eq_refl).
  split; reflexivity.
Defined.

(** C6, as the specification has it, fails: a sixth argument is accepted.
    Six arguments naming window 12 of the laptop return [true]. *)
Lemma forceWindowOverDock_accepts_six_arguments :
  Length (place 12 ++ [1%float]) <> 5%nat /\
  fst (invoke (ForceWindowOverDock macOS_SDK) (place 12 ++ [1%float]) laptop)
  = Returned (Boolean true) /\
  threw (fst (invoke (ForceWindowOverDock macOS_SDK)
                     (place 12 ++ [1%float]) laptop)) = false.
Proof. vm_compute. repeat apply conj; [discriminate | reflexivity ..]. Qed.

(** C6, amended: [forceWindowOverDock] requires at least five arguments.
    Every call with fewer than five signals an invocation error; a call with
    more than five is not refused for its count: the arguments after the
    fifth are ignored and the call behaves as the call with the first five
    alone. *)
Theorem forceWindowOverDock_at_least_five (hdr : SystemHeaders) :
  (forall info o,
     (Length info < 5)%nat ->
     threw (fst (invoke (ForceWindowOverDock hdr) info o)) = true) /\
  (forall a0 a1 a2 a3 a4 extra o,
     invoke (ForceWindowOverDock hdr) (a0 :: a1 :: a2 :: a3 :: a4 :: extra) o
     = invoke (ForceWindowOverDock hdr) [a0; a1; a2; a3; a4] o).
Proof.
  split.
  - intros info o Hlt. rewrite invoke_too_few by assumption. reflexivity.
  - intros a0 a1 a2 a3 a4 extra o.
    rewrite !invoke_enough by (simpl; lia). reflexivity.
Qed.

Lemma forceWindowOverDock_at_least_five_witness :
  threw (fst (invoke (ForceWindowOverDock macOS_SDK)
                     [12%float; 0%float; 0%float; 800%float] laptop)) = true /\
  invoke (ForceWindowOverDock macOS_SDK) (place 12 ++ [1%float]) laptop
  = invoke (ForceWindowOverDock macOS_SDK) (place 12) laptop.
Proof.
  destruct (forceWindowOverDock_at_least_five macOS_SDK) as [Hfew Hextra].
  split.
  - apply (Hfew [12%float; 0%float; 0%float; 800%float] laptop). simpl. lia.
  - apply (Hextra 12%float 0%float 0%float 800%float 600%float [1%float] laptop).
Defined.

(** C8: [forceWindowOverDock] is idempotent.  Whatever the arguments and the
    state, a second call with the same arguments returns what the first
    returned and leaves every window with the level, frame, collection
    behavior and movability the first call left it with; the displays are
    the same as well. *)
Theorem forceWindowOverDock_idempotent
    (hdr : SystemHeaders) (info : CallbackInfo) (o : OS) :
  let once := invoke (ForceWindowOverDock hdr) info o in
  let twice := invoke (ForceWindowOverDock hdr) info (snd once) in
  fst twice = fst once /\
  appWindows (snd twice) = appWindows (snd once) /\
  mainDisplayBounds (snd twice) = mainDisplayBounds (snd once) /\
  mainScreen (snd twice) = mainScreen (snd once).
Proof.
  intros once twice. subst once twice.
  destruct (Nat.ltb_spec (Length info) 5) as [Hlt|Hge].
  - rewrite !invoke_too_few by assumption.
    repeat apply conj; reflexivity.
  - rewrite (invoke_enough hdr info o) by assumption.
    destruct (findTargetWindow (appWindows o) _ 0) as [i|] eqn:Hfind.
    + cbn [snd fst]. rewrite invoke_enough by assumption.
      cbn [appWindows].
      rewrite findTargetWindow_alter by apply performAll_windowNumber.
      rewrite Hfind. cbn [snd fst appWindows mainDisplayBounds mainScreen].
      repeat apply conj; try reflexivity.
      rewrite list_alter_alter_eq. apply list_alter_ext; [|reflexivity].
      intros w' _. apply performAll_overDock_twice.
    + cbn [snd fst]. rewrite invoke_enough by assumption.
      rewrite Hfind. repeat apply conj; reflexivity.
Qed.

Example forceWindowOverDock_twice_laptop :
  appWindows (snd (invoke (ForceWindowOverDock macOS_SDK) (place 12)
                     (snd (invoke (ForceWindowOverDock macOS_SDK) (place 12)
                                  laptop))))
  = [ plain_window 7;
      {| windowNumber := 12; level := 21;
         window_frame := NSMakeRect 0%float 0%float 800%float 600%float;
         collectionBehavior := 81; isMovable := false |};
      plain_window 31 ].
Proof. reflexivity. Qed.

(** C10: the window identifier is cut to a signed 32-bit integer before it
    is compared.  The value the scan compares with is the integer part of
    the identifier, kept on its low 32 bits and read as two's complement
    (0 for an identifier that is not finite); so the target is the first
    window whose number fits 32 bits and agrees with that integer on the low
    32 bits, and when there is no such window the call returns [false].
    Two calls whose identifiers have the same 32-bit value and whose other
    arguments agree do the same thing, and a window whose number is outside
    the signed 32-bit range is never the target: the scan does not select it
    and the call leaves it as it was. *)
Theorem forceWindowOverDock_identifier_is_int32 (hdr : SystemHeaders) :
  (forall a b rest o,
     Int32Value a = Int32Value b ->
     invoke (ForceWindowOverDock hdr) (a :: rest) o
     = invoke (ForceWindowOverDock hdr) (b :: rest) o) /\
  (forall info o i w,
     appWindows o !! i = Some w ->
     ~ (- 2 ^ 31 <= windowNumber w < 2 ^ 31) ->
     findTargetWindow (appWindows o) (Int32Value (at_index info 0)) 0 <> Some i /\
     appWindows (snd (invoke (ForceWindowOverDock hdr) info o)) !! i = Some w) /\
  (forall d sign m e,
     Prim2SF d = S754_finite sign m e ->
     int32_of (integer_part sign m e) (Int32Value d)) /\
  (forall d,
     (forall sign m e, Prim2SF d <> S754_finite sign m e) ->
     Int32Value d = 0) /\
  (forall info o z pre w post,
     (5 <= Length info)%nat ->
     truncate (at_index info 0) = Some z ->
     appWindows o = pre ++ w :: post ->
     Forall (fun w' => ~ int32_of z (windowNumber w')) pre ->
     int32_of z (windowNumber w) ->
     findTargetWindow (appWindows o) (Int32Value (at_index info 0)) 0
     = Some (length pre) /\
     fst (invoke (ForceWindowOverDock hdr) info o) = Returned (Boolean true) /\
     appWindows (snd (invoke (ForceWindowOverDock hdr) info o))
     = pre ++ {| windowNumber := windowNumber w;
                 level := kCGDockWindowLevel hdr + 1;
                 window_frame := requestedFrame info;
                 collectionBehavior := overDockBehavior hdr;
                 isMovable := false |} :: post) /\
  (forall info o z,
     (5 <= Length info)%nat ->
     truncate (at_index info 0) = Some z ->
     Forall (fun w' => ~ int32_of z (windowNumber w')) (appWindows o) ->
     invoke (ForceWindowOverDock hdr) info o = (Returned (Boolean false), o)).
Proof.
  assert (Hscan : forall d z windows,
            truncate d = Some z ->
            Forall (fun w' => ~ int32_of z (windowNumber w')) windows ->
            none_numbered (Int32Value d) windows).
  { intros d z windows Hd Hall. unfold none_numbered.
    eapply Forall_impl; [exact Hall|]. intros w' Hw' Heq. apply Hw'.
    rewrite Heq. apply Int32Value_spec. exact Hd. }
  repeat apply conj.
  - intros a b rest o Hab.
    destruct (Nat.ltb_spec (Length (a :: rest)) 5) as [Hlt|Hge].
    + rewrite !invoke_too_few by assumption. reflexivity.
    + rewrite !invoke_enough by assumption.
      change (at_index (a :: rest) 0) with a.
      change (at_index (b :: rest) 0) with b.
      rewrite Hab. reflexivity.
  - intros info o i w Hi Hout.
    assert (Hnot : findTargetWindow (appWindows o)
                     (Int32Value (at_index info 0)) 0 <> Some i).
    { intros Hfind.
      destruct (findTargetWindow_Some _ _ _ _ Hfind)
        as (pre & w0 & post & Hsplit & -> & Hw0 & _).
      rewrite Hsplit, list_lookup_middle in Hi by reflexivity.
      injection Hi as ->. apply Hout. rewrite Hw0. apply Int32Value_range. }
    split; [exact Hnot |].
    destruct (Nat.ltb_spec (Length info) 5) as [Hlt|Hge].
    + rewrite invoke_too_few by assumption. exact Hi.
    + rewrite invoke_enough by assumption.
      destruct (findTargetWindow _ _ 0) as [i'|]; [|exact Hi].
      cbn [snd appWindows]. rewrite list_lookup_alter_ne; [exact Hi |].
      intros ->. apply Hnot. reflexivity.
  - intros d sign m e Hd.
    apply Int32Value_spec, truncate_finite. exact Hd.
  - intros d Hd. unfold Int32Value, truncate.
    destruct (Prim2SF d) as [| | |sign m e] eqn:E; try reflexivity.
    exfalso. apply (Hd sign m e). reflexivity.
  - intros info o z pre w post Hlen Hz Hsplit Hpre Hw.
    assert (Hfind : findTargetWindow (appWindows o)
                      (Int32Value (at_index info 0)) 0 = Some (length pre)).
    { rewrite Hsplit.
      apply (findTargetWindow_first pre w post _ 0).
      - apply (Hscan _ z); assumption.
      - symmetry. apply (Int32Value_unique _ z); assumption. }
    split; [exact Hfind |].
    rewrite invoke_enough, Hfind by assumption. cbn [fst snd appWindows].
    split; [reflexivity |].
    rewrite Hsplit, alter_middle. reflexivity.
  - intros info o z Hlen Hz Hall.
    rewrite invoke_enough by assumption.
    rewrite (proj2 (findTargetWindow_None _ _ 0) (Hscan _ z _ Hz Hall)).
    reflexivity.
Qed.

Lemma forceWindowOverDock_identifier_is_int32_witness :
  invoke (ForceWindowOverDock macOS_SDK) (place 4294967301) with_wide_number
  = invoke (ForceWindowOverDock macOS_SDK) (place 5) with_wide_number /\
  appWindows (snd (invoke (ForceWindowOverDock macOS_SDK) (place 4294967301)
                          with_wide_number)) !! 0%nat
  = Some (plain_window 4294967301) /\
  int32_of 4294967301 (Int32Value 4294967301%float) /\
  Int32Value nan = 0 /\
  findTargetWindow (appWindows with_wide_number)
                   (Int32Value (at_index (place 4294967301) 0)) 0
  = Some 1%nat /\
  appWindows (snd (invoke (ForceWindowOverDock macOS_SDK) (place 4294967301)
                          with_wide_number))
  = [ plain_window 4294967301;
      {| windowNumber := 5; level := 21;
         window_frame := NSMakeRect 0%float 0%float 800%float 600%float;
         collectionBehavior := 81; isMovable := false |} ] /\
  invoke (ForceWindowOverDock macOS_SDK) (place 4294967301) laptop
  = (Returned (Boolean false), laptop).
Proof.
  destruct (forceWindowOverDock_identifier_is_int32 macOS_SDK)
    as (Hsame & Hnever & Hlow & Hzero & Hhit & Hmiss).
  assert (Hlen : (5 <= Length (place 4294967301))%nat) by (simpl; lia).
  assert (Htrunc : truncate (at_index (place 4294967301) 0) = Some 4294967301)
    by reflexivity.
  assert (Hout : ~ int32_of 4294967301 4294967301)
    by (intros [Hrange _]; lia).
  assert (Hin : int32_of 4294967301 5) by (split; [lia | reflexivity]).
  pose proof (Hsame 4294967301%float 5%float
                [0%float; 0%float; 800%float; 600%float] with_wide_number
                eq_refl) as W1.
  assert (Hwide : ~ (- 2 ^ 31 <= windowNumber (plain_window 4294967301) < 2 ^ 31))
    by (simpl; lia).
  pose proof (Hnever (place 4294967301) with_wide_number 0%nat
                (plain_window 4294967301) eq_refl Hwide) as [_ W2].
  pose proof (Hlow 4294967301%float false 4503599632613376%positive (-20)
                eq_refl) as W3.
  assert (Hnan : forall sign m e, Prim2SF nan <> S754_finite sign m e)
    by (intros sign m e; discriminate).
  pose proof (Hzero nan Hnan) as W4.
  assert (Hpre : Forall (fun w' => ~ int32_of 4294967301 (windowNumber w'))
                        [plain_window 4294967301])
    by (constructor; [exact Hout | constructor]).
  pose proof (Hhit (place 4294967301) with_wide_number 4294967301
                [plain_window 4294967301] (plain_window 5) []
                Hlen Htrunc eq_refl Hpre Hin)
    as (W5 & _ & W6).
  assert (Hnone : Forall (fun w' => ~ int32_of 4294967301 (windowNumber w'))
                         (appWindows laptop))
    by (repeat constructor; intros [_ Hmod]; vm_compute in Hmod; discriminate).
  pose proof (Hmiss (place 4294967301) laptop 4294967301 Hlen Htrunc Hnone)
    as W7.
  exact (conj W1 (conj W2 (conj W3 (conj W4 (conj W5 (conj W6 W7)))))).
Defined.

Example forceWindowOverDock_wide_identifier_hits_window_5 :
  appWindows (snd (invoke (ForceWindowOverDock macOS_SDK) (place 4294967301)
                          with_wide_number))
  = [ plain_window 4294967301;
      {| windowNumber := 5; level := 21;
         window_frame := NSMakeRect 0%float 0%float 800%float 600%float;
         collectionBehavior := 81; isMovable := false |} ].
Proof. reflexivity. Qed.

(** * Further properties of the bridge *)

(** ** Objects: what [Set] stores, [Get] reads *)

Lemma Get_Set_same {V} (key : string) (v : V) props :
  Get key (Set_ key v props) = Some v.
Proof.
  induction props as [|[k old] rest IH]; simpl.
  - rewrite String.eqb_refl. reflexivity.
  - destruct (String.eqb_spec k key) as [->|Hne]; simpl.
    + rewrite String.eqb_refl. reflexivity.
    + rewrite (proj2 (String.eqb_neq _ _) Hne). exact IH.
Qed.

Lemma Get_Set_other {V} (key key' : string) (v : V) props :
  key' <> key -> Get key' (Set_ key v props) = Get key' props.
Proof.
  intros Hne. induction props as [|[k old] rest IH]; simpl.
  - rewrite (proj2 (String.eqb_neq _ _) (not_eq_sym Hne)). reflexivity.
  - destruct (String.eqb_spec k key) as [->|Hk]; simpl.
    + rewrite (proj2 (String.eqb_neq _ _) (not_eq_sym Hne)). reflexivity.
    + destruct (String.eqb k key'); [reflexivity | exact IH].
Qed.

(** ** More on the scan *)

Lemma findTargetWindow_existsb windows windowId k :
  existsb (fun w => windowNumber w =? windowId) windows
  = match findTargetWindow windows windowId k with
    | Some _ => true
    | None => false
    end.
Proof.
  revert k. induction windows as [|w rest IH]; intros k; simpl.
  - reflexivity.
  - destruct (windowNumber w =? windowId); [reflexivity | apply IH].
Qed.

Lemma findTargetWindow_Some_lookup windows windowId i :
  findTargetWindow windows windowId 0 = Some i ->
  exists w, windows !! i = Some w /\ windowNumber w = windowId.
Proof.
  intros Hfind.
  destruct (findTargetWindow_Some _ _ _ _ Hfind)
    as (pre & w & post & -> & -> & Hw & _).
  exists w. split; [|exact Hw].
  apply list_lookup_middle. reflexivity.
Qed.

Lemma map_windowNumber_alter (f : NSWindow -> NSWindow) i windows :
  (forall w, windowNumber (f w) = windowNumber w) ->
  map windowNumber (alter f i windows) = map windowNumber windows.
Proof.
  intros Hf. revert i.
  induction windows as [|w rest IH]; intros i; [reflexivity|].
  destruct i as [|i].
  - change (alter f 0%nat (w :: rest)) with (f w :: rest).
    simpl. rewrite Hf. reflexivity.
  - change (alter f (S i) (w :: rest)) with (w :: alter f i rest).
    simpl. rewrite IH. reflexivity.
Qed.

(** The window list a call leaves, whatever the arguments. *)
Lemma invoke_appWindows hdr info o :
  appWindows (snd (invoke (ForceWindowOverDock hdr) info o))
  = if (Length info <? 5)%nat then appWindows o
    else match findTargetWindow (appWindows o)
                                (Int32Value (at_index info 0)) 0 with
         | None => appWindows o
         | Some i => alter (performAll (overDockMessages hdr info)) i
                           (appWindows o)
         end.
Proof.
  destruct (Nat.ltb_spec (Length info) 5) as [Hlt|Hge].
  - rewrite invoke_too_few by assumption. reflexivity.
  - rewrite invoke_enough by assumption.
    destruct (findTargetWindow _ _ 0); reflexivity.
Qed.

(** ** [Init] *)

(** X1: whatever the exports object holds already, after [Init] the name
    [getScreenInfo] is bound to the wrapped [GetScreenInfo], the name
    [forceWindowOverDock] to the wrapped [ForceWindowOverDock], and every
    other name reads as it did before. *)
Theorem Init_binds_two_names
    (hdr : SystemHeaders)
    (exports : list (string * (CallbackInfo -> OS -> Completion * OS))) :
  Get "getScreenInfo" (Init hdr exports) = Some (invoke GetScreenInfo) /\
  Get "forceWindowOverDock" (Init hdr exports)
  = Some (invoke (ForceWindowOverDock hdr)) /\
  (forall name,
     name <> "getScreenInfo" -> name <> "forceWindowOverDock" ->
     Get name (Init hdr exports) = Get name exports).
Proof.
  unfold Init. repeat apply conj.
  - rewrite Get_Set_other by discriminate. apply Get_Set_same.
  - apply Get_Set_same.
  - intros name H1 H2. rewrite !Get_Set_other by assumption. reflexivity.
Qed.

Lemma Init_binds_two_names_witness :
  Get "version"
      (Init macOS_SDK [("version", invoke GetScreenInfo);
                       ("getScreenInfo", invoke (ForceWindowOverDock macOS_SDK))])
  = Some (invoke GetScreenInfo) /\
  Get "getScreenInfo"
      (Init macOS_SDK [("version", invoke GetScreenInfo);
                       ("getScreenInfo", invoke (ForceWindowOverDock macOS_SDK))])
  = Some (invoke GetScreenInfo).
Proof.
  destruct (Init_binds_two_names macOS_SDK
              [("version", invoke GetScreenInfo);
               ("getScreenInfo", invoke (ForceWindowOverDock macOS_SDK))])
    as (Hget & _ & Hother).
  split; [|exact Hget].
  rewrite (Hother "version") by discriminate. reflexivity.
Defined.

(** ** [forceWindowOverDock]: outcome, frame and composition *)

(** X2: for a call whose arguments are JavaScript numbers, the outcome is
    decided by the argument count and by whether some window carries the
    32-bit identifier: a [TypeError] below five arguments, otherwise [true]
    when such a window exists and [false] when none does.  The numbers given
    for the rectangle play no part in it. *)
Theorem forceWindowOverDock_outcome
    (hdr : SystemHeaders) (info : CallbackInfo) (o : OS) :
  fst (invoke (ForceWindowOverDock hdr) info o)
  = if (Length info <? 5)%nat
    then Thrown (TypeError "Wrong number of arguments")
    else Returned
           (Boolean
              (existsb (fun w => windowNumber w =? Int32Value (at_index info 0))
                       (appWindows o))).
Proof.
  destruct (Nat.ltb_spec (Length info) 5) as [Hlt|Hge].
  - rewrite invoke_too_few by assumption. reflexivity.
  - rewrite invoke_enough by assumption.
    rewrite (findTargetWindow_existsb _ _ 0).
    destruct (findTargetWindow _ _ 0); reflexivity.
Qed.

(** X3: for a call whose arguments are JavaScript numbers, a call that
    does not return [true] (it ended in the argument-count [TypeError], or
    returned [false]) leaves the whole system state as it was; a call that
    returns [true] has delivered exactly four messages. *)
Theorem forceWindowOverDock_acts_only_on_true
    (hdr : SystemHeaders) (info : CallbackInfo) (o : OS) :
  (fst (invoke (ForceWindowOverDock hdr) info o) <> Returned (Boolean true) ->
   snd (invoke (ForceWindowOverDock hdr) info o) = o) /\
  (fst (invoke (ForceWindowOverDock hdr) info o) = Returned (Boolean true) ->
   length (delivered (snd (invoke (ForceWindowOverDock hdr) info o)))
   = (length (delivered o) + 4)%nat).
Proof.
  destruct (Nat.ltb_spec (Length info) 5) as [Hlt|Hge].
  - rewrite invoke_too_few by assumption. split; [reflexivity | discriminate].
  - rewrite invoke_enough by assumption.
    destruct (findTargetWindow _ _ 0) as [i|]; cbn [fst snd delivered].
    + split; [intros H; contradiction H; reflexivity |].
      intros _. rewrite length_app. reflexivity.
    + split; [reflexivity | discriminate].
Qed.

Lemma forceWindowOverDock_acts_only_on_true_witness :
  snd (invoke (ForceWindowOverDock macOS_SDK) (place 99) laptop) = laptop /\
  length (delivered (snd (invoke (ForceWindowOverDock macOS_SDK) (place 12)
                                 laptop))) = 4%nat.
Proof.
  split.
  - apply (forceWindowOverDock_acts_only_on_true macOS_SDK (place 99) laptop).
    vm_compute. discriminate.
  - apply (forceWindowOverDock_acts_only_on_true macOS_SDK (place 12) laptop).
    reflexivity.
Defined.

(** X4: no call adds, removes, reorders or renumbers a window: the list of
    window numbers is the same after the call as before, in the same order,
    and so every identifier resolves to the same position afterwards. *)
Theorem forceWindowOverDock_keeps_window_numbers
    (hdr : SystemHeaders) (info : CallbackInfo) (o : OS) :
  let o' := snd (invoke (ForceWindowOverDock hdr) info o) in
  map windowNumber (appWindows o') = map windowNumber (appWindows o) /\
  length (appWindows o') = length (appWindows o) /\
  (forall windowId,
     findTargetWindow (appWindows o') windowId 0
     = findTargetWindow (appWindows o) windowId 0).
Proof.
  intros o'. subst o'. rewrite invoke_appWindows.
  destruct (Length info <? 5)%nat; [repeat apply conj; reflexivity|].
  destruct (findTargetWindow _ _ 0) as [i|]; [|repeat apply conj; reflexivity].
  repeat apply conj.
  - apply map_windowNumber_alter, performAll_windowNumber.
  - apply length_alter.
  - intros windowId. apply findTargetWindow_alter, performAll_windowNumber.
Qed.

(** X5: a call touches at most one window and speaks to at most one: there
    is a position such that every window elsewhere is exactly as before, and
    the delivery log is the old log followed by messages to that position
    only, either none or the four of the source in their order. *)
Theorem forceWindowOverDock_touches_one_window
    (hdr : SystemHeaders) (info : CallbackInfo) (o : OS) :
  let o' := snd (invoke (ForceWindowOverDock hdr) info o) in
  exists i msgs,
    (msgs = [] \/ msgs = overDockMessages hdr info) /\
    delivered o' = delivered o ++ map (pair i) msgs /\
    (forall j, j <> i -> appWindows o' !! j = appWindows o !! j).
Proof.
  intros o'. subst o'.
  destruct (Nat.ltb_spec (Length info) 5) as [Hlt|Hge].
  - rewrite invoke_too_few by assumption.
    exists 0%nat, []. cbn [snd map].
    rewrite app_nil_r. repeat apply conj; [left|..]; reflexivity.
  - rewrite invoke_enough by assumption.
    destruct (findTargetWindow _ _ 0) as [i|]; cbn [snd delivered appWindows].
    + exists i, (overDockMessages hdr info).
      repeat apply conj; [right; reflexivity | reflexivity |].
      intros j Hj. apply list_lookup_alter_ne. congruence.
    + exists 0%nat, []. cbn [map].
      rewrite app_nil_r. repeat apply conj; [left|..]; reflexivity.
Qed.

(** X6: the outcome of a call does not depend on earlier calls of
    [forceWindowOverDock]: after any call, a call returns or throws what it
    would have returned or thrown without it. *)
Theorem forceWindowOverDock_outcome_ignores_history
    (hdr : SystemHeaders) (info1 info2 : CallbackInfo) (o : OS) :
  fst (invoke (ForceWindowOverDock hdr) info2
         (snd (invoke (ForceWindowOverDock hdr) info1 o)))
  = fst (invoke (ForceWindowOverDock hdr) info2 o).
Proof.
  destruct (Nat.ltb_spec (Length info2) 5) as [Hlt|Hge].
  - rewrite !(invoke_too_few hdr info2) by assumption. reflexivity.
  - rewrite !(invoke_enough hdr info2) by assumption.
    rewrite invoke_appWindows.
    assert (Hsame :
      findTargetWindow
        (if (Length info1 <? 5)%nat then appWindows o
         else match findTargetWindow (appWindows o)
                                     (Int32Value (at_index info1 0)) 0 with
              | None => appWindows o
              | Some i => alter (performAll (overDockMessages hdr info1)) i
                                (appWindows o)
              end)
        (Int32Value (at_index info2 0)) 0
      = findTargetWindow (appWindows o) (Int32Value (at_index info2 0)) 0).
    { destruct (Length info1 <? 5)%nat; [reflexivity|].
      destruct (findTargetWindow _ (Int32Value (at_index info1 0)) 0);
        [|reflexivity].
      apply findTargetWindow_alter, performAll_windowNumber. }
    rewrite Hsame.
    destruct (findTargetWindow (appWindows o)
                               (Int32Value (at_index info2 0)) 0);
      reflexivity.
Qed.

(** X7: the last call wins.  When two calls name the same window (their
    identifiers have the same 32-bit value) and the second has its five
    arguments, the windows after both are the windows after the second
    alone: nothing of the first call's rectangle survives. *)
Theorem forceWindowOverDock_last_call_wins
    (hdr : SystemHeaders) (info1 info2 : CallbackInfo) (o : OS) :
  (5 <= Length info2)%nat ->
  Int32Value (at_index info1 0) = Int32Value (at_index info2 0) ->
  appWindows (snd (invoke (ForceWindowOverDock hdr) info2
                     (snd (invoke (ForceWindowOverDock hdr) info1 o))))
  = appWindows (snd (invoke (ForceWindowOverDock hdr) info2 o)).
Proof.
  intros Hlen Hid. rewrite !invoke_appWindows.
  rewrite (proj2 (Nat.ltb_ge _ _) Hlen), Hid.
  destruct (Length info1 <? 5)%nat; [reflexivity|].
  destruct (findTargetWindow (appWindows o) _ 0) as [i|] eqn:Hfind.
  - rewrite findTargetWindow_alter by apply performAll_windowNumber.
    rewrite Hfind, list_alter_alter_eq.
    apply list_alter_ext; [|reflexivity]. intros w _. reflexivity.
  - rewrite Hfind. reflexivity.
Qed.

Lemma forceWindowOverDock_last_call_wins_witness :
  appWindows
    (snd (invoke (ForceWindowOverDock macOS_SDK) (place 12)
            (snd (invoke (ForceWindowOverDock macOS_SDK)
                    [4294967308%float; 5%float; 6%float; 7%float; 8%float]
                    laptop))))
  = appWindows (snd (invoke (ForceWindowOverDock macOS_SDK) (place 12) laptop)).
Proof.
  apply (forceWindowOverDock_last_call_wins macOS_SDK
           [4294967308%float; 5%float; 6%float; 7%float; 8%float]
           (place 12) laptop).
  - simpl. lia.
  - reflexivity.
Defined.

(** X8: calls that name different windows commute.  When the two
    identifiers differ as 32-bit values, the windows end up the same in
    whichever order the two calls are made. *)
Theorem forceWindowOverDock_distinct_targets_commute
    (hdr : SystemHeaders) (info1 info2 : CallbackInfo) (o : OS) :
  Int32Value (at_index info1 0) <> Int32Value (at_index info2 0) ->
  appWindows (snd (invoke (ForceWindowOverDock hdr) info2
                     (snd (invoke (ForceWindowOverDock hdr) info1 o))))
  = appWindows (snd (invoke (ForceWindowOverDock hdr) info1
                       (snd (invoke (ForceWindowOverDock hdr) info2 o)))).
Proof.
  intros Hid. rewrite !invoke_appWindows.
  destruct (Length info1 <? 5)%nat; [reflexivity|].
  destruct (Length info2 <? 5)%nat; [reflexivity|].
  destruct (findTargetWindow (appWindows o) (Int32Value (at_index info1 0)) 0)
    as [i|] eqn:H1;
  destruct (findTargetWindow (appWindows o) (Int32Value (at_index info2 0)) 0)
    as [j|] eqn:H2;
  rewrite ?findTargetWindow_alter by apply performAll_windowNumber;
  rewrite ?H1, ?H2; try reflexivity.
  destruct (findTargetWindow_Some_lookup _ _ _ H1) as (w1 & Hw1 & Hn1).
  destruct (findTargetWindow_Some_lookup _ _ _ H2) as (w2 & Hw2 & Hn2).
  apply list_alter_alter_ne. intros ->.
  apply Hid. congruence.
Qed.

Lemma forceWindowOverDock_distinct_targets_commute_witness :
  appWindows
    (snd (invoke (ForceWindowOverDock macOS_SDK) (place 12)
            (snd (invoke (ForceWindowOverDock macOS_SDK)
                    [7%float; 5%float; 6%float; 70%float; 80%float] laptop))))
  = appWindows
      (snd (invoke (ForceWindowOverDock macOS_SDK)
              [7%float; 5%float; 6%float; 70%float; 80%float]
              (snd (invoke (ForceWindowOverDock macOS_SDK) (place 12) laptop)))).
Proof.
  apply (forceWindowOverDock_distinct_targets_commute macOS_SDK
           [7%float; 5%float; 6%float; 70%float; 80%float] (place 12) laptop).
  vm_compute. discriminate.
Defined.

(** X9: a window standing behind another window with the same number is
    out of reach.  Whatever the arguments, the scan never selects it and the
    call leaves it as it was: the first window with a number shadows every
    later one. *)
Theorem forceWindowOverDock_shadowed_window_untouched
    (hdr : SystemHeaders) (info : CallbackInfo) (o : OS)
    (j i : nat) (front behind : NSWindow) :
  (j < i)%nat ->
  appWindows o !! j = Some front ->
  appWindows o !! i = Some behind ->
  windowNumber front = windowNumber behind ->
  findTargetWindow (appWindows o) (Int32Value (at_index info 0)) 0 <> Some i /\
  appWindows (snd (invoke (ForceWindowOverDock hdr) info o)) !! i = Some behind.
Proof.
  intros Hji Hj Hi Hsame.
  assert (Hnot : findTargetWindow (appWindows o)
                   (Int32Value (at_index info 0)) 0 <> Some i).
  { intros Hfind.
    destruct (findTargetWindow_Some _ _ _ _ Hfind)
      as (pre & w & post & Hsplit & -> & Hw & Hpre).
    rewrite Hsplit in Hi, Hj.
    rewrite list_lookup_middle in Hi by reflexivity. injection Hi as ->.
    rewrite lookup_app_l in Hj by exact Hji.
    unfold none_numbered in Hpre. rewrite Forall_lookup in Hpre.
    apply (Hpre j front Hj). congruence. }
  split; [exact Hnot |].
  rewrite invoke_appWindows.
  destruct (Length info <? 5)%nat; [exact Hi |].
  destruct (findTargetWindow _ _ 0) as [i'|]; [|exact Hi].
  rewrite list_lookup_alter_ne; [exact Hi |].
  intros ->. apply Hnot. reflexivity.
Qed.

Lemma forceWindowOverDock_shadowed_window_untouched_witness :
  findTargetWindow (appWindows with_duplicate)
                   (Int32Value (at_index (place 12) 0)) 0 <> Some 2%nat /\
  appWindows (snd (invoke (ForceWindowOverDock macOS_SDK) (place 12)
                          with_duplicate)) !! 2%nat
  = Some (plain_window 12).
Proof.
  apply (forceWindowOverDock_shadowed_window_untouched macOS_SDK (place 12)
           with_duplicate 1 2 (plain_window 12) (plain_window 12)).
  - lia.
  - reflexivity.
  - reflexivity.
  - reflexivity.
Defined.
